(** * contrib/run_clippy.py: the clippy wrapper

    The script builds one fixed argument list, prints it, runs it as a child
    process and hands the child's return code to [sys.exit].  It is embedded
    here as a program in a small state-and-exception monad over
    - a read-only [host] (what the operating system and the caller supply:
      environment variables, [sys.argv], and the answer of the system to a
      process-creation request), and
    - a [store] (the heap of Python list objects, the text held in the buffer
      of [sys.stdout], and the chronological trace of observable events).

    A string is a sequence of characters with code points 0 to 255. *)

From Stdlib Require Import Ascii String ZArith.
From stdpp Require Import base numbers strings list gmap.

Local Open Scope string_scope.
Local Open Scope Z_scope.

(** ** Strings *)

(** The line terminator that [print] appends. *)
Definition newline : string := String "010"%char "".

(** [sep.join(items)] *)
Fixpoint str_join (sep : string) (items : list string) : string :=
  match items with
  | [] => ""
  | [x] => x
  | x :: rest => x +:+ sep +:+ str_join sep rest
  end.

(** [c.isspace()] for the code points 0 to 255: TAB, LF, VT, FF, CR (9 to
    13), FS, GS, RS, US and the space (28 to 32), NEL (U+0085, 133) and the
    no-break space (U+00A0, 160). *)
Definition isspace (c : ascii) : bool :=
  let n := nat_of_ascii c in
  ((9 <=? n)%nat && (n <=? 13)%nat) || ((28 <=? n)%nat && (n <=? 32)%nat)
  || (n =? 133)%nat || (n =? 160)%nat.

Definition flush_token (cur : string) : list string :=
  match cur with
  | "" => []
  | _ => [cur]
  end.

(** [s.split()]: split on runs of whitespace, no empty tokens.  [cur] is the
    token being read. *)
Fixpoint split_go (cur s : string) : list string :=
  match s with
  | "" => flush_token cur
  | String c s' =>
      if isspace c then flush_token cur ++ split_go "" s'
      else split_go (cur +:+ String c "") s'
  end.

Definition str_split (s : string) : list string := split_go "" s.


(** Does a text hold a line feed or a carriage return?  This is the test a
    line-buffered text stream makes on every write. *)
Fixpoint has_newline (s : string) : bool :=
  match s with
  | "" => false
  | String c s' =>
      Ascii.eqb c "010"%char || Ascii.eqb c "013"%char || has_newline s'
  end.

(** ** The [subprocess] interface *)

(** The special values accepted for [stdin], [stdout] and [stderr]. *)
Inductive stream_arg : Type :=
  | PIPE
  | DEVNULL
  | STDOUT
  | FileNo (fd : Z).

(** Keyword arguments of [subprocess.run]. *)
Record run_kwargs : Type := RunKwargs {
  kw_stdin : option stream_arg;
  kw_stdout : option stream_arg;
  kw_stderr : option stream_arg;
  kw_capture_output : bool;
  kw_shell : bool;
  kw_timeout : option Z;
  kw_check : bool;
  kw_bufsize : Z;
}.

(** [subprocess.run(args)] with no keyword given: every keyword at its
    default. *)
Definition default_kwargs : run_kwargs :=
  {| kw_stdin := None; kw_stdout := None; kw_stderr := None;
     kw_capture_output := false; kw_shell := false;
     kw_timeout := None; kw_check := false; kw_bufsize := -1 |}.

(** What happens to one standard stream of the child. *)
Inductive stream_fate : Type :=
  | Inherited
  | Captured
  | Discarded
  | Redirected (fd : Z)
  | MergedIntoStdout.

(** [subprocess]: [None] means no redirection, the child inherits the handle
    of the parent; [capture_output=True] stands for [PIPE] on both output
    streams. *)
Definition child_stream (arg : option stream_arg) (capture : bool) : stream_fate :=
  if capture then Captured
  else match arg with
       | None => Inherited
       | Some PIPE => Captured
       | Some DEVNULL => Discarded
       | Some STDOUT => MergedIntoStdout
       | Some (FileNo fd) => Redirected fd
       end.

Definition child_stdout (kw : run_kwargs) : stream_fate :=
  child_stream (kw_stdout kw) (kw_capture_output kw).

Definition child_stderr (kw : run_kwargs) : stream_fate :=
  child_stream (kw_stderr kw) (kw_capture_output kw).

(** The value returned by [subprocess.run]; [args] is the list object that was
    passed in. *)
Record CompletedProcess : Type := {
  args : nat;
  returncode : Z;
}.

(** ** Host, store, events *)

(** Answer of the system to a process-creation request, once the parent has
    waited for the child. *)
Inductive spawn_result : Type :=
  | LaunchFailure (strerror : string)
  | Terminated (status : Z).

(** How the interpreter set up [sys.stdout] at start-up: write-through
    (under [-u] or [PYTHONUNBUFFERED]), line-buffered when standard output is
    a terminal, block-buffered when it is a pipe or a file.  [capacity] is
    the number of characters the buffers of the stream hold before they are
    written out. *)
Inductive buffering : Type :=
  | Unbuffered
  | LineBuffered
  | BlockBuffered (capacity : nat).

Record host : Type := Host {
  environ : gmap string string;
  sys_argv : list string;
  stdout_mode : buffering;
  spawn : list string → run_kwargs → spawn_result;
}.

Inductive exn : Type :=
  | OSError (strerror : string)
  | CalledProcessError (status : Z) (cmd : list string)
  | SystemExit (code : Z).

(** [Stdout text]: a [print] call hands [text] to [sys.stdout].
    [Fd1 text]: [text] leaves the buffer of [sys.stdout] and is written to
    file descriptor 1, where a reader of standard output sees it.
    [Popen], [Wait]: the process-creation call and the end of the wait for
    the child.  [Excepthook e]: the interpreter reports the uncaught [e] on
    standard error. *)
Inductive event : Type :=
  | Stdout (text : string)
  | Fd1 (text : string)
  | Popen (argv : list string) (kw : run_kwargs)
  | Wait (status : Z)
  | Excepthook (e : exn).

Record store : Type := Store {
  heap : gmap nat (list string);
  pending : string;
  trace : list event;
}.

Definition empty_store : store := {| heap := ∅; pending := ""; trace := [] |}.

(** ** The monad *)

Inductive outcome (A : Type) : Type :=
  | Return (a : A)
  | Raise (e : exn).
Arguments Return {A} a.
Arguments Raise {A} e.

Definition py (A : Type) : Type := host → store → outcome A * store.

#[global] Instance py_ret : MRet py := λ A a _ σ, (Return a, σ).

#[global] Instance py_bind : MBind py := λ A B f m h σ,
  match m h σ with
  | (Return a, σ') => f a h σ'
  | (Raise e, σ') => (Raise e, σ')
  end.

Definition raise {A} (e : exn) : py A := λ _ σ, (Raise e, σ).

Definition ask : py host := λ h σ, (Return h, σ).

Definition emit (ev : event) : py unit := λ _ σ,
  (Return (),
   {| heap := heap σ; pending := pending σ; trace := trace σ ++ [ev] |}).

(** A list display [[x, y, ...]] creates a new list object. *)
Definition new_list (items : list string) : py nat := λ _ σ,
  let r := fresh (dom (heap σ)) in
  (Return r,
   {| heap := <[r := items]> (heap σ); pending := pending σ;
      trace := trace σ |}).

(** Reading the items of a list object.  References are never dangling in
    Python; the default is not reachable from a reference that [new_list]
    returned. *)
Definition list_items (r : nat) : py (list string) := λ _ σ,
  (Return (default [] (heap σ !! r)), σ).

(** ** Builtins and library calls used by the script *)

(** [sep.join(r)] for a list object [r]. *)
Definition join (sep : string) (r : nat) : py string :=
  items ← list_items r; mret (str_join sep items).

(** Writing a text out to file descriptor 1; nothing is written for the
    empty text. *)
Definition written (s : string) : list event :=
  match s with
  | "" => []
  | _ => [Fd1 s]
  end.

(** [sys.stdout.write(text)] with [pend] in the buffer: the text that stays
    in the buffer and what is written out.  A write-through stream writes at
    once; a line-buffered one writes everything out when [text] holds a line
    end; a block-buffered one keeps the text while it fits and writes
    everything out when it does not. *)
Definition write_effect (mode : buffering) (pend text : string)
  : string * list event :=
  let all := pend +:+ text in
  match mode with
  | Unbuffered => ("", written all)
  | LineBuffered => if has_newline text then ("", written all) else (all, [])
  | BlockBuffered capacity =>
      if (String.length all <=? capacity)%nat then (all, [])
      else ("", written all)
  end.

Definition stdout_write (text : string) : py unit := λ h σ,
  let '(pend, out) := write_effect (stdout_mode h) (pending σ) text in
  (Return (), {| heap := heap σ; pending := pend; trace := trace σ ++ out |}).


(** [print(s)] hands [s] and a line terminator to [sys.stdout]: it writes
    [s], then the terminator, and does not flush. *)
Definition print (s : string) : py unit :=
  emit (Stdout (s +:+ newline));;
  stdout_write s;;
  stdout_write newline.

(** [subprocess.run(r, **kw)]: read the argument list, create the child, wait
    for it, and build the [CompletedProcess]; with [check=True] a non-zero
    return code raises. *)
Definition subprocess_run (r : nat) (kw : run_kwargs) : py CompletedProcess :=
  argv ← list_items r;
  emit (Popen argv kw);;
  h ← ask;
  match spawn h argv kw with
  | LaunchFailure err => raise (OSError err)
  | Terminated rc =>
      emit (Wait rc);;
      if kw_check kw && negb (rc =? 0)%Z
      then raise (CalledProcessError rc argv)
      else mret {| args := r; returncode := rc |}
  end.

(** [sys.exit(n)] *)
Definition sys_exit {A} (n : Z) : py A := raise (SystemExit n).

(** ** The script *)

(** The list display of lines 13-20. *)
Definition cmd_items : list string :=
  [ "cargo"; "clippy";
    "--workspace";
    "--all-features";
    "--all-targets";
    "--target-dir"; "target/clippy";
    "--"; "-D"; "warnings"; "-A"; "mismatched_lifetime_syntaxes" ].

Definition main : py Z :=
  cmd ← new_list cmd_items;
  joined ← join " " cmd;
  print ("Running: " +:+ joined);;
  result ← subprocess_run cmd default_kwargs;
  mret (returncode result).

(** The module body, run with [__name__] bound to [name].  The two imports
    and the [def] have no effect on the store. *)
Definition run_clippy (name : string) : py unit :=
  if String.eqb name "__main__"
  then code ← main; sys_exit code
  else mret ().

(** ** The interpreter around the module *)

(** [python contrib/run_clippy.py] (or an import, for another [name]): the
    code the interpreter exits with.  [SystemExit n] exits with [n]; any other
    uncaught exception is reported on standard error by the exception hook
    and the interpreter exits with 1. *)
Definition python (name : string) (h : host) (σ : store) : Z * store :=
  match run_clippy name h σ with
  | (Return _, σ') => (0, σ')
  | (Raise (SystemExit n), σ') => (n, σ')
  | (Raise e, σ') =>
      (1, {| heap := heap σ'; pending := pending σ';
             trace := trace σ' ++ [Excepthook e] |})
  end.


(** The low eight bits of the exit code are what a POSIX parent reads from
    [wait]. *)
Definition wait_status (code : Z) : Z := Z.land code 255.

(** ** Observations on traces *)

(** The events a computation adds to the trace of the store it starts in. *)
Definition emitted {A} (m : host → store → A * store) (h : host) (σ : store)
  : list event :=
  drop (length (trace σ)) (trace (m h σ).2).

(** The texts that [print] calls handed to [sys.stdout], in order. *)
Definition stdout_writes (t : list event) : list string :=
  omap (λ ev, match ev with Stdout s => Some s | _ => None end) t.

Definition stdout_text (t : list event) : string :=
  foldr String.append "" (stdout_writes t).

Definition popen_calls (t : list event) : list (list string * run_kwargs) :=
  omap (λ ev, match ev with Popen a kw => Some (a, kw) | _ => None end) t.

Definition reaped (t : list event) : list Z :=
  omap (λ ev, match ev with Wait rc => Some rc | _ => None end) t.

Definition reported (t : list event) : list exn :=
  omap (λ ev, match ev with Excepthook e => Some e | _ => None end) t.


(** The events of the interpreter, without the writes to the descriptor. *)
Definition calls (t : list event) : list event :=
  omap (λ ev, match ev with Fd1 _ => None | _ => Some ev end) t.


(** A host on which the tool is found and exits with [rc]; standard output
    is a pipe, as under a hook runner. *)
Definition host_exiting (rc : Z) : host :=
  {| environ := ∅; sys_argv := ["contrib/run_clippy.py"];
     stdout_mode := BlockBuffered 8192;
     spawn := λ _ _, Terminated rc |}.


(** A host on which the tool is not on the search path. *)
Definition host_without_cargo : host :=
  {| environ := ∅; sys_argv := ["contrib/run_clippy.py"];
     stdout_mode := LineBuffered;
     spawn := λ _ _,
       LaunchFailure "[Errno 2] No such file or directory: 'cargo'" |}.

(** ** Arguments that survive the rendering *)

(** No character of [s] is whitespace. *)
Fixpoint no_space (s : string) : bool :=
  match s with
  | "" => true
  | String c s' => negb (isspace c) && no_space s'
  end.

(** A non-empty argument without whitespace: the ones that
    [' '.join] renders without ambiguity. *)
Definition is_token (s : string) : bool :=
  negb (String.eqb s "") && no_space s.

(** Where a token may end: at the end of the text or before whitespace. *)
Definition boundary (rest : string) : Prop :=
  ∀ cur, split_go cur rest = (flush_token cur ++ split_go "" rest)%list.

(** ** What one call of [main] does, by answer of the system *)

(** The line that [main] prints, with its terminator. *)
Definition banner : string :=
  "Running: " +:+ str_join " " cmd_items +:+ newline.

Definition main_outcome (r : spawn_result) : outcome Z :=
  match r with
  | LaunchFailure err => Raise (OSError err)
  | Terminated rc => Return rc
  end.

Definition main_events (r : spawn_result) : list event :=
  Stdout banner :: Popen cmd_items default_kwargs ::
  match r with
  | LaunchFailure _ => []
  | Terminated rc => [Wait rc]
  end.

(** The two writes of one [print] call, on the buffer. *)
Definition print_effect (mode : buffering) (pend s : string)
  : string * list event :=
  let '(p1, o1) := write_effect mode pend s in
  let '(p2, o2) := write_effect mode p1 newline in
  (p2, (o1 ++ o2)%list).

(** The same events with the writes to the descriptor in their place. *)
Definition main_trace (h : host) (σ : store) : list event :=
  Stdout banner ::
  ((print_effect (stdout_mode h) (pending σ)
      ("Running: " +:+ str_join " " cmd_items)).2 ++
   Popen cmd_items default_kwargs ::
   match spawn h cmd_items default_kwargs with
   | LaunchFailure _ => []
   | Terminated rc => [Wait rc]
   end)%list.

(** * Properties *)

Lemma emitted_app {A} (m : host → store → A * store) h σ evs :
  trace (m h σ).2 = (trace σ ++ evs)%list → emitted m h σ = evs.
Proof.
  intros E. unfold emitted. rewrite E. apply drop_app_length.
Qed.

Lemma string_app_cons c (a b : string) : String c a +:+ b = String c (a +:+ b).
Proof. reflexivity. Qed.

Lemma string_app_nil_r (s : string) : s +:+ "" = s.
Proof.
  induction s as [|c s IH]; [reflexivity|].
  rewrite string_app_cons. by f_equal.
Qed.

Lemma string_app_assoc (a b c : string) : (a +:+ b) +:+ c = a +:+ b +:+ c.
Proof.
  induction a as [|x a IH]; [reflexivity|].
  rewrite !string_app_cons. by f_equal.
Qed.


(** What [sys.stdout.write] puts on the descriptor is never an event of the
    interpreter. *)
Lemma calls_written s : calls (written s) = [].
Proof. destruct s; reflexivity. Qed.

Lemma calls_write_effect mode pend text :
  calls (write_effect mode pend text).2 = [].
Proof.
  unfold write_effect. destruct mode; simpl;
    repeat case_match; simpl; auto using calls_written.
Qed.

Lemma calls_print_effect mode pend s : calls (print_effect mode pend s).2 = [].
Proof.
  unfold print_effect.
  pose proof (calls_write_effect mode pend s) as H1.
  destruct (write_effect mode pend s) as [p1 o1].
  pose proof (calls_write_effect mode p1 newline) as H2.
  destruct (write_effect mode p1 newline) as [p2 o2]. simpl in *.
  unfold calls in *. rewrite omap_app, H1, H2. reflexivity.
Qed.

Lemma stdout_writes_calls t : stdout_writes (calls t) = stdout_writes t.
Proof. induction t as [|[] t IH]; simpl; by rewrite ?IH. Qed.

Lemma popen_calls_calls t : popen_calls (calls t) = popen_calls t.
Proof. induction t as [|[] t IH]; simpl; by rewrite ?IH. Qed.

Lemma reaped_calls t : reaped (calls t) = reaped t.
Proof. induction t as [|[] t IH]; simpl; by rewrite ?IH. Qed.

Lemma reported_calls t : reported (calls t) = reported t.
Proof. induction t as [|[] t IH]; simpl; by rewrite ?IH. Qed.

(** One call of [main], in full: the outcome, the heap, the buffer and the
    trace. *)
Lemma main_run h σ :
  main h σ =
    (main_outcome (spawn h cmd_items default_kwargs),
     {| heap := <[fresh (dom (heap σ)) := cmd_items]> (heap σ);
        pending :=
          (print_effect (stdout_mode h) (pending σ)
             ("Running: " +:+ str_join " " cmd_items)).1;
        trace := trace σ ++ main_trace h σ |}).
Proof.
  unfold main, main_trace, print_effect, mbind, py_bind, new_list, join,
    print, stdout_write, subprocess_run, emit, list_items, ask, mret, py_ret,
    raise, mbind, py_bind; simpl.
  rewrite lookup_insert_eq; simpl.
  destruct (write_effect (stdout_mode h) (pending σ) _) as [p1 o1]; simpl.
  destruct (write_effect (stdout_mode h) p1 newline) as [p2 o2]; simpl.
  rewrite ?lookup_insert_eq; simpl.
  destruct (spawn h cmd_items default_kwargs) as [err|rc]; simpl;
    rewrite <- ?app_assoc; simpl; rewrite <- ?app_assoc; reflexivity.
Qed.

Lemma main_emitted h σ : emitted main h σ = main_trace h σ.
Proof. apply emitted_app. rewrite main_run. reflexivity. Qed.

(** Without the writes to the descriptor, the events of [main] are those of
    [main_events]. *)
Lemma main_calls h σ :
  calls (emitted main h σ) = main_events (spawn h cmd_items default_kwargs).
Proof.
  rewrite main_emitted. unfold main_trace, main_events, calls.
  simpl. rewrite omap_app. fold (calls (print_effect (stdout_mode h)
    (pending σ) ("Running: " +:+ str_join " " cmd_items)).2).
  rewrite calls_print_effect.
  destruct (spawn h cmd_items default_kwargs); reflexivity.
Qed.

Lemma main_stdout_writes h σ :
  stdout_writes (emitted main h σ)
  = stdout_writes (main_events (spawn h cmd_items default_kwargs)).
Proof. by rewrite <- stdout_writes_calls, main_calls. Qed.

Lemma main_popen_calls h σ :
  popen_calls (emitted main h σ)
  = popen_calls (main_events (spawn h cmd_items default_kwargs)).
Proof. by rewrite <- popen_calls_calls, main_calls. Qed.

Lemma main_heap h σ : heap (main h σ).2 = heap (new_list cmd_items h σ).2.
Proof. rewrite main_run. reflexivity. Qed.

(** The module run as the main program. *)
Lemma script_run h σ :
  run_clippy "__main__" h σ =
    (match spawn h cmd_items default_kwargs with
     | LaunchFailure err => Raise (OSError err)
     | Terminated rc => Raise (SystemExit rc)
     end, (main h σ).2).
Proof.
  unfold run_clippy; simpl. unfold mbind, py_bind, sys_exit, raise.
  rewrite main_run; simpl.
  destruct (spawn h cmd_items default_kwargs); reflexivity.
Qed.

Lemma python_emitted h σ :
  emitted (python "__main__") h σ =
    (main_trace h σ ++
     match spawn h cmd_items default_kwargs with
     | LaunchFailure err => [Excepthook (OSError err)]
     | Terminated _ => []
     end)%list.
Proof.
  apply emitted_app. unfold python. rewrite script_run, main_run.
  destruct (spawn h cmd_items default_kwargs); cbn -[main_trace];
    rewrite <- ?app_assoc, ?app_nil_r; reflexivity.
Qed.

Lemma python_calls h σ :
  calls (emitted (python "__main__") h σ) =
    (main_events (spawn h cmd_items default_kwargs) ++
     match spawn h cmd_items default_kwargs with
     | LaunchFailure err => [Excepthook (OSError err)]
     | Terminated _ => []
     end)%list.
Proof.
  rewrite python_emitted. unfold calls at 1. rewrite omap_app.
  fold (calls (main_trace h σ)). rewrite <- main_emitted, main_calls.
  destruct (spawn h cmd_items default_kwargs); reflexivity.
Qed.

Lemma python_popen_calls h σ :
  popen_calls (emitted (python "__main__") h σ)
  = popen_calls (main_events (spawn h cmd_items default_kwargs)).
Proof.
  rewrite <- popen_calls_calls, python_calls.
  destruct (spawn h cmd_items default_kwargs); reflexivity.
Qed.

Lemma python_reaped h σ :
  reaped (emitted (python "__main__") h σ)
  = reaped (main_events (spawn h cmd_items default_kwargs)).
Proof.
  rewrite <- reaped_calls, python_calls.
  destruct (spawn h cmd_items default_kwargs); reflexivity.
Qed.

Lemma python_reported h σ :
  reported (emitted (python "__main__") h σ)
  = match spawn h cmd_items default_kwargs with
    | LaunchFailure err => [OSError err]
    | Terminated _ => []
    end.
Proof.
  rewrite <- reported_calls, python_calls.
  destruct (spawn h cmd_items default_kwargs); reflexivity.
Qed.

(** *** The descriptor *)







(** Read an observation of a run of [main] or of the module off
    [main_events]. *)
Ltac project_events :=
  unfold stdout_text;
  rewrite ?main_stdout_writes, ?main_popen_calls, ?python_popen_calls,
    ?python_reaped, ?python_reported.

(** ** Exit status *)

(** C1: when the child terminates with return code [N], [main] returns [N]
    unchanged, the module passes exactly [N] to [sys.exit], the interpreter
    exits with code [N] (0 for a successful child, any other [N] as it is),
    and for the exit statuses a child can report, 0 to 255, the status a
    POSIX parent of the wrapper reads is [N] again. *)
Theorem exit_status_propagates (h : host) (σ : store) (N : Z) :
  spawn h cmd_items default_kwargs = Terminated N →
  (main h σ).1 = Return N
  ∧ (run_clippy "__main__" h σ).1 = Raise (SystemExit N)
  ∧ (python "__main__" h σ).1 = N
  ∧ (0 ≤ N ≤ 255 → wait_status (python "__main__" h σ).1 = N).
Proof.
  intros HN.
  assert (Hpy : (python "__main__" h σ).1 = N).
  { unfold python. rewrite script_run, HN. reflexivity. }
  repeat split.
  - rewrite main_run, HN. reflexivity.
  - rewrite script_run, HN. reflexivity.
  - exact Hpy.
  - intros [Hlo Hhi]. rewrite Hpy. unfold wait_status.
    change 255 with (Z.ones 8). rewrite Z.land_ones by lia.
    apply Z.mod_small. lia.
Qed.

Lemma exit_status_propagates_witness :
  spawn (host_exiting 101) cmd_items default_kwargs = Terminated 101
  ∧ (main (host_exiting 101) empty_store).1 = Return 101
  ∧ (python "__main__" (host_exiting 101) empty_store).1 = 101.
Proof.
  split; [reflexivity|].
  destruct (exit_status_propagates (host_exiting 101) empty_store 101)
    as (Hmain & _ & Hpy & _); [reflexivity|].
  split; [exact Hmain | exact Hpy].
Defined.

(** ** The printed line *)

(** C2, as stated, fails: the printed line starts with the label
    [Running:], so its whitespace tokens are not the argument sequence
    (thirteen tokens against twelve). *)
Lemma stdout_tokens_differ_from_argv :
  str_split (stdout_text (emitted main (host_exiting 0) empty_store))
  ≠ cmd_items.
Proof. vm_compute. discriminate. Qed.

(** C2, amended: the text [main] writes to standard output is the label
    ["Running: "], the arguments joined by single spaces, and a line
    terminator; its whitespace tokens are the token [Running:] followed by
    exactly the argument sequence, in order. *)
Theorem printed_tokens (h : host) (σ : store) :
  stdout_text (emitted main h σ)
    = "Running: " +:+ str_join " " cmd_items +:+ newline
  ∧ str_split (stdout_text (emitted main h σ)) = "Running:" :: cmd_items.
Proof.
  project_events.
  destruct (spawn h cmd_items default_kwargs); split; reflexivity.
Qed.

(** ** Launch failure *)

(** C3: when the tool cannot be started, the error of the process-creation
    call leaves [main] and the module as the same [OSError] (nothing catches
    or rewrites it), the interpreter reports it on standard error and exits
    with code 1; a run in which the tool started and exited, with any code,
    reports no exception, so the two are told apart by the error text. *)
Theorem launch_failure_propagates (h : host) (σ : store) (err : string) :
  spawn h cmd_items default_kwargs = LaunchFailure err →
  (main h σ).1 = Raise (OSError err)
  ∧ (run_clippy "__main__" h σ).1 = Raise (OSError err)
  ∧ (python "__main__" h σ).1 = 1
  ∧ wait_status (python "__main__" h σ).1 = 1
  ∧ reported (emitted (python "__main__") h σ) = [OSError err]
  ∧ ∀ h' σ' rc,
      spawn h' cmd_items default_kwargs = Terminated rc →
      reported (emitted (python "__main__") h' σ') = [].
Proof.
  intros HF.
  assert (Hpy : (python "__main__" h σ).1 = 1).
  { unfold python. rewrite script_run, HF. reflexivity. }
  repeat split.
  - rewrite main_run, HF. reflexivity.
  - rewrite script_run, HF. reflexivity.
  - exact Hpy.
  - rewrite Hpy. reflexivity.
  - rewrite python_reported, HF. reflexivity.
  - intros h' σ' rc HT. rewrite python_reported, HT. reflexivity.
Qed.

Lemma launch_failure_propagates_witness :
  spawn host_without_cargo cmd_items default_kwargs
    = LaunchFailure "[Errno 2] No such file or directory: 'cargo'"
  ∧ (main host_without_cargo empty_store).1
    = Raise (OSError "[Errno 2] No such file or directory: 'cargo'")
  ∧ (python "__main__" host_without_cargo empty_store).1 = 1.
Proof.
  split; [reflexivity|].
  destruct (launch_failure_propagates host_without_cargo empty_store
              "[Errno 2] No such file or directory: 'cargo'")
    as (Hmain & _ & Hpy & _); [reflexivity|].
  split; [exact Hmain | exact Hpy].
Defined.

(** ** The argument vector *)

(** C4: there is one argument vector that every call of [main] hands to
    process creation: any two calls pass it, whatever the environment
    variables, the command line of the wrapper, the answers of the system and
    the stores the two calls start in. *)
Theorem argv_constant :
  ∃ argv, ∀ (h1 h2 : host) (σ1 σ2 : store),
    (popen_calls (emitted main h1 σ1)).*1 = [argv]
    ∧ (popen_calls (emitted main h2 σ2)).*1 = [argv].
Proof.
  exists cmd_items. intros h1 h2 σ1 σ2. project_events.
  destruct (spawn h1 cmd_items default_kwargs),
           (spawn h2 cmd_items default_kwargs); split; reflexivity.
Qed.




(** C6: the list object built at the start of [main] is the same at the end
    (the heap after [main] is the heap right after the construction, and it
    differs from the heap before only by that object), and the vector given
    to process creation is, item for item, the one that was built and the one
    that was rendered into the printed line. *)
Theorem argv_not_mutated (h : host) (σ : store) :
  ∃ cmd,
    (new_list cmd_items h σ).1 = Return cmd
    ∧ heap (new_list cmd_items h σ).2 !! cmd = Some cmd_items
    ∧ heap (main h σ).2 = heap (new_list cmd_items h σ).2
    ∧ delete cmd (heap (main h σ).2) = heap σ
    ∧ (popen_calls (emitted main h σ)).*1 = [cmd_items]
    ∧ stdout_writes (emitted main h σ)
        = ["Running: " +:+ str_join " " cmd_items +:+ newline].
Proof.
  exists (fresh (dom (heap σ))).
  project_events. rewrite main_heap; simpl.
  repeat split.
  - apply lookup_insert_eq.
  - apply delete_insert_id, not_elem_of_dom, is_fresh.
  - destruct (spawn h cmd_items default_kwargs); reflexivity.
  - destruct (spawn h cmd_items default_kwargs); reflexivity.
Qed.

(** ** Process creation *)

(** C7: every call of [main], and every run of the module as the main
    program, makes exactly one process-creation call, whether the launch
    fails or the child exits with any code, and that call carries no
    timeout; one child is waited for when the launch succeeds and none when
    it fails. *)
Theorem single_popen (h : host) (σ : store) :
  length (popen_calls (emitted main h σ)) = 1%nat
  ∧ length (popen_calls (emitted (python "__main__") h σ)) = 1%nat
  ∧ kw_timeout <$> (popen_calls (emitted main h σ)).*2 = [None]
  ∧ reaped (emitted (python "__main__") h σ)
      = match spawn h cmd_items default_kwargs with
        | LaunchFailure _ => []
        | Terminated rc => [rc]
        end.
Proof.
  project_events.
  destruct (spawn h cmd_items default_kwargs); repeat split; reflexivity.
Qed.

(** C8: the one process-creation call names no stream ([stdin], [stdout]
    and [stderr] are left at [None]), asks for no capture and gives no buffer
    size of its own, so the child's standard output and standard error are
    the inherited ones. *)
Theorem streams_inherited (h : host) (σ : store) :
  (λ kw, (kw_stdin kw, kw_stdout kw, kw_stderr kw))
    <$> (popen_calls (emitted main h σ)).*2 = [(None, None, None)]
  ∧ kw_capture_output <$> (popen_calls (emitted main h σ)).*2 = [false]
  ∧ kw_bufsize <$> (popen_calls (emitted main h σ)).*2
      = [kw_bufsize default_kwargs]
  ∧ child_stdout <$> (popen_calls (emitted main h σ)).*2 = [Inherited]
  ∧ child_stderr <$> (popen_calls (emitted main h σ)).*2 = [Inherited].
Proof.
  project_events.
  destruct (spawn h cmd_items default_kwargs); repeat split; reflexivity.
Qed.

(** C9: the vector given to process creation is the twelve-item list below;
    item 6 is the output directory [target/clippy], item 7 is the [--] that
    separates the lint levels from the tool flags, and the last item is the
    one allowed lint, [mismatched_lifetime_syntaxes]. *)
Theorem argv_literal (h : host) (σ : store) :
  ∃ argv,
    (popen_calls (emitted main h σ)).*1 = [argv]
    ∧ argv = [ "cargo"; "clippy"; "--workspace"; "--all-features";
               "--all-targets"; "--target-dir"; "target/clippy"; "--";
               "-D"; "warnings"; "-A"; "mismatched_lifetime_syntaxes" ]
    ∧ length argv = 12%nat
    ∧ argv !! 6%nat = Some "target/clippy"
    ∧ argv !! 7%nat = Some "--"
    ∧ drop 8 argv = ["-D"; "warnings"; "-A"; "mismatched_lifetime_syntaxes"].
Proof.
  exists cmd_items. project_events.
  destruct (spawn h cmd_items default_kwargs); repeat split; reflexivity.
Qed.

(** ** The module guard *)

(** C10: run under any name other than [__main__] (an import), the module
    leaves the store as it was, so nothing is printed and no process is
    created, and it does not call [sys.exit]; only under the guard does the
    module end in [SystemExit], carrying the value of [main]; [main] itself
    never raises [SystemExit]: it returns an integer or lets the launch
    error through. *)
Theorem import_has_no_effect (name : string) (h : host) (σ : store) :
  name ≠ "__main__" →
  run_clippy name h σ = (Return (), σ)
  ∧ emitted (run_clippy name) h σ = []
  ∧ python name h σ = (0, σ)
  ∧ ((∃ n, (main h σ).1 = Return n
         ∧ (run_clippy "__main__" h σ).1 = Raise (SystemExit n))
     ∨ (∃ err, (main h σ).1 = Raise (OSError err)
         ∧ (run_clippy "__main__" h σ).1 = Raise (OSError err))).
Proof.
  intros Hname.
  assert (Hrun : run_clippy name h σ = (Return (), σ)).
  { unfold run_clippy. apply String.eqb_neq in Hname. rewrite Hname.
    reflexivity. }
  repeat split.
  - exact Hrun.
  - apply emitted_app. rewrite Hrun, app_nil_r. reflexivity.
  - unfold python. rewrite Hrun. reflexivity.
  - rewrite script_run, main_run.
    destruct (spawn h cmd_items default_kwargs) as [err|rc]; simpl; eauto.
Qed.

Lemma import_has_no_effect_witness :
  "run_clippy" ≠ "__main__"
  ∧ run_clippy "run_clippy" host_without_cargo empty_store
    = (Return (), empty_store)
  ∧ python "run_clippy" (host_exiting 1) empty_store = (0, empty_store).
Proof.
  split; [discriminate|]. split.
  - apply (import_has_no_effect "run_clippy" host_without_cargo empty_store).
    discriminate.
  - apply (import_has_no_effect "run_clippy" (host_exiting 1) empty_store).
    discriminate.
Defined.

(** * Further properties of the script *)

(** ** Rendering and tokenizing *)

Lemma boundary_nil : boundary "".
Proof. intros cur. simpl. by rewrite app_nil_r. Qed.

Lemma boundary_space c rest : isspace c = true → boundary (String c rest).
Proof. intros Hc cur. simpl. rewrite Hc. reflexivity. Qed.

Lemma split_go_app cur s rest :
  no_space s = true → boundary rest →
  split_go cur (s +:+ rest) = (flush_token (cur +:+ s) ++ split_go "" rest)%list.
Proof.
  revert cur. induction s as [|c s IH]; intros cur Hs Hrest.
  - rewrite string_app_nil_r. apply Hrest.
  - simpl in Hs. apply andb_true_iff in Hs as [Hc Hs].
    apply negb_true_iff in Hc.
    rewrite string_app_cons. simpl split_go. rewrite Hc, IH by assumption.
    rewrite string_app_assoc. reflexivity.
Qed.

Lemma flush_token_token s : is_token s = true → flush_token s = [s].
Proof. destruct s; [discriminate | reflexivity]. Qed.

Lemma split_go_join items rest :
  Forall (λ s, is_token s = true) items → boundary rest →
  split_go "" (str_join " " items +:+ rest) = (items ++ split_go "" rest)%list.
Proof.
  intros Hitems Hrest. induction Hitems as [|x l Hx Hl IH]; [reflexivity|].
  pose proof Hx as Hxt. apply andb_true_iff in Hx as [_ Hx].
  destruct l as [|y l].
  - simpl str_join. rewrite split_go_app by assumption.
    change ("" +:+ x) with x.
    rewrite flush_token_token by assumption. reflexivity.
  - change (str_join " " (x :: y :: l))
      with (x +:+ " " +:+ str_join " " (y :: l)).
    rewrite !string_app_assoc.
    rewrite split_go_app; [|assumption|by apply boundary_space].
    change ("" +:+ x) with x.
    rewrite flush_token_token by assumption.
    change (split_go "" (" " +:+ str_join " " (y :: l) +:+ rest))
      with (split_go "" (str_join " " (y :: l) +:+ rest)).
    rewrite IH. reflexivity.
Qed.

(** X1: for any list of arguments over the characters with code points 0 to
    255 that are non-empty and hold no whitespace character, splitting the
    space-joined rendering on whitespace gives the list back, and the whole
    printed line (label, rendering, line terminator) splits into the token
    [Running:] followed by the list. *)
Theorem split_join_roundtrip (items : list string) :
  Forall (λ s, is_token s = true) items →
  str_split (str_join " " items) = items
  ∧ str_split ("Running: " +:+ str_join " " items +:+ newline)
    = "Running:" :: items.
Proof.
  intros Hitems. unfold str_split. split.
  - rewrite <- (string_app_nil_r (str_join " " items)).
    rewrite split_go_join by (assumption || apply boundary_nil).
    apply app_nil_r.
  - change ("Running: " +:+ str_join " " items +:+ newline)
      with ("Running:" +:+ " " +:+ str_join " " items +:+ newline).
    rewrite split_go_app;
      [|reflexivity|by apply boundary_space].
    change (split_go "" (" " +:+ str_join " " items +:+ newline))
      with (split_go "" (str_join " " items +:+ newline)).
    rewrite split_go_join by (assumption || by apply boundary_space).
    change (split_go "" newline) with (@nil string).
    rewrite app_nil_r. reflexivity.
Qed.

Lemma split_join_roundtrip_witness :
  Forall (λ s, is_token s = true) cmd_items
  ∧ str_split (str_join " " cmd_items) = cmd_items.
Proof.
  assert (H : Forall (λ s, is_token s = true) cmd_items)
    by (repeat constructor).
  split; [exact H|]. apply (split_join_roundtrip cmd_items H).
Defined.

Lemma no_space_app a b :
  no_space a = true → no_space b = true → no_space (a +:+ b) = true.
Proof.
  intros Ha Hb. induction a as [|c a IH]; [exact Hb|].
  rewrite string_app_cons. simpl in *.
  apply andb_true_iff in Ha as [Hc Ha]. by rewrite Hc, IH.
Qed.

Lemma flush_token_tokens cur :
  no_space cur = true → Forall (λ s, is_token s = true) (flush_token cur).
Proof.
  intros Hcur. destruct cur as [|c cur]; [constructor|].
  repeat constructor. unfold is_token. by rewrite Hcur.
Qed.

Lemma split_go_tokens cur s :
  no_space cur = true → Forall (λ s, is_token s = true) (split_go cur s).
Proof.
  revert cur. induction s as [|c s IH]; intros cur Hcur; simpl.
  - by apply flush_token_tokens.
  - destruct (isspace c) eqn:Hc.
    + apply Forall_app. split; [by apply flush_token_tokens | by apply IH].
    + apply IH, no_space_app; [assumption|]. simpl. by rewrite Hc.
Qed.

(** X2: the converse, over the same characters: a list that comes back
    unchanged from joining with spaces and splitting on whitespace has only
    non-empty arguments without a whitespace character (space, TAB, line
    ends, FS to US, NEL, no-break space); an empty argument or one with such
    a character in it is not recoverable from the printed line, which is not
    quoted. *)
Theorem roundtrip_only_tokens (items : list string) :
  str_split (str_join " " items) = items →
  Forall (λ s, is_token s = true) items.
Proof.
  intros E. rewrite <- E. by apply split_go_tokens.
Qed.

Lemma roundtrip_only_tokens_witness :
  str_split (str_join " " cmd_items) = cmd_items
  ∧ Forall (λ s, is_token s = true) cmd_items.
Proof.
  assert (E : str_split (str_join " " cmd_items) = cmd_items)
    by reflexivity.
  split; [exact E|]. exact (roundtrip_only_tokens cmd_items E).
Defined.

(** ** Exit codes seen by the caller of the wrapper *)

(** X3: the wrapper run as the main program exits with code 0 exactly when
    the tool was started and returned 0; a failed launch and every non-zero
    return code give a non-zero exit code. *)
Theorem exit_zero_iff_tool_zero (h : host) (σ : store) :
  (python "__main__" h σ).1 = 0
  ↔ spawn h cmd_items default_kwargs = Terminated 0.
Proof.
  unfold python. rewrite script_run.
  destruct (spawn h cmd_items default_kwargs) as [err|rc]; simpl.
  - split; discriminate.
  - split; [intros -> | intros [= ->]]; reflexivity.
Qed.

Lemma exit_zero_iff_tool_zero_witness :
  (python "__main__" (host_exiting 0) empty_store).1 = 0.
Proof.
  apply (exit_zero_iff_tool_zero (host_exiting 0) empty_store). reflexivity.
Defined.

(** X4: the exit code does not tell a failed launch from a tool that ran
    and returned 1: both runs exit with code 1 (only the exception report
    differs). *)
Theorem launch_failure_exits_like_status_one
    (h h' : host) (σ σ' : store) (err : string) :
  spawn h cmd_items default_kwargs = LaunchFailure err →
  spawn h' cmd_items default_kwargs = Terminated 1 →
  (python "__main__" h σ).1 = (python "__main__" h' σ').1
  ∧ reported (emitted (python "__main__") h σ)
    ≠ reported (emitted (python "__main__") h' σ').
Proof.
  intros HF HT. unfold python at 1 2. rewrite !script_run, HF, HT.
  split; [reflexivity|].
  rewrite !python_reported, HF, HT. discriminate.
Qed.

Lemma launch_failure_exits_like_status_one_witness :
  (python "__main__" host_without_cargo empty_store).1
  = (python "__main__" (host_exiting 1) empty_store).1.
Proof.
  apply (launch_failure_exits_like_status_one
           host_without_cargo (host_exiting 1) empty_store empty_store
           "[Errno 2] No such file or directory: 'cargo'");
    reflexivity.
Defined.

(** X5: a tool killed by signal [s] (return code [-s], [s] from 1 to 255)
    makes the wrapper exit with code [-s]; the status a POSIX parent then
    reads from the wrapper is [256 - s], which is not zero. *)
Theorem signal_returncode_status (h : host) (σ : store) (s : Z) :
  1 ≤ s ≤ 255 →
  spawn h cmd_items default_kwargs = Terminated (- s) →
  (python "__main__" h σ).1 = - s
  ∧ wait_status (python "__main__" h σ).1 = 256 - s
  ∧ wait_status (python "__main__" h σ).1 ≠ 0.
Proof.
  intros Hs HT.
  assert (Hpy : (python "__main__" h σ).1 = - s).
  { unfold python. rewrite script_run, HT. reflexivity. }
  assert (Hw : wait_status (- s) = 256 - s).
  { unfold wait_status. change 255 with (Z.ones 8).
    rewrite Z.land_ones by lia. symmetry.
    apply (Z.mod_unique (- s) (2 ^ 8) (-1)); lia. }
  rewrite Hpy, Hw. repeat split; lia.
Qed.

Lemma signal_returncode_status_witness :
  wait_status (python "__main__" (host_exiting (-9)) empty_store).1 = 247.
Proof.
  apply (signal_returncode_status (host_exiting (-9)) empty_store 9);
    [lia | reflexivity].
Defined.
